(** * Google AI toolset of composio: a shallow embedding

    Model of [python/plugins/google/composio_google/toolset.py]:
    the schema wrapper [_wrap_tool], the listing entry points [get_tool] and
    [get_actions], the response walker [convert_map_composite], and the
    dispatcher [execute_function_call] / [handle_response].

    Python values are the tree type [Value]; a Python [dict] is an
    association list kept in insertion order.  Exceptions and the effects of
    the external toolset (the actions executed, the warnings emitted) are an
    explicit state-and-error monad [M]. *)

From Stdlib Require Import List String Bool ZArith Lia.
Import ListNotations.
Open Scope string_scope.
Open Scope list_scope.
Set Warnings "-register-all".

(** ** Python values *)

Inductive Value : Type :=
| VNone
| VBool (b : bool)
| VInt (z : Z)
| VStr (s : string)
| VList (l : list Value)
| VTuple (l : list Value)
| VDict (d : list (string * Value))
(** [proto.marshal.collections.maps.MapComposite], the vendor nested map *)
| VMap (items : list (string * Value)).

(** Induction through the nested lists of [Value]. *)
Section ValueInd.
Variable P : Value -> Prop.
Hypothesis HNone : P VNone.
Hypothesis HBool : forall b, P (VBool b).
Hypothesis HInt : forall z, P (VInt z).
Hypothesis HStr : forall s, P (VStr s).
Hypothesis HList : forall l, Forall P l -> P (VList l).
Hypothesis HTuple : forall l, Forall P l -> P (VTuple l).
Hypothesis HDict : forall d, Forall (fun kv => P (snd kv)) d -> P (VDict d).
Hypothesis HMap : forall d, Forall (fun kv => P (snd kv)) d -> P (VMap d).

Fixpoint value_ind' (v : Value) : P v :=
  let fix go_l (l : list Value) : Forall P l :=
    match l with
    | [] => Forall_nil _
    | x :: t => Forall_cons _ (value_ind' x) (go_l t)
    end in
  let fix go_d (d : list (string * Value)) : Forall (fun kv => P (snd kv)) d :=
    match d with
    | [] => Forall_nil _
    | (k, x) :: t => Forall_cons (k, x) (value_ind' x) (go_d t)
    end in
  match v with
  | VNone => HNone
  | VBool b => HBool b
  | VInt z => HInt z
  | VStr s => HStr s
  | VList l => HList l (go_l l)
  | VTuple l => HTuple l (go_l l)
  | VDict d => HDict d (go_d d)
  | VMap d => HMap d (go_d d)
  end.
End ValueInd.

(** ** Python dicts as insertion-ordered association lists *)

(** [d.get(k)]: the value stored under [k], if any. *)
Fixpoint dict_lookup (d : list (string * Value)) (k : string) : option Value :=
  match d with
  | [] => None
  | (k', v) :: t => if String.eqb k k' then Some v else dict_lookup t k
  end.

(** [d.get(k, default)] *)
Definition dict_get (d : list (string * Value)) (k : string) (default : Value) : Value :=
  match dict_lookup d k with
  | Some v => v
  | None => default
  end.

(** [d[k] = v]: an existing key keeps its position, a new key goes last. *)
Fixpoint dict_set (d : list (string * Value)) (k : string) (v : Value)
  : list (string * Value) :=
  match d with
  | [] => [(k, v)]
  | (k', v') :: t =>
      if String.eqb k k' then (k', v) :: t else (k', v') :: dict_set t k v
  end.

(** [{k: v for k, v in items}]: successive assignments into an empty dict. *)
Definition dict_of_items (items : list (string * Value)) : list (string * Value) :=
  fold_left (fun d kv => dict_set d (fst kv) (snd kv)) items [].

(** ** The response walker (toolset.py, lines 212-218) *)

Fixpoint convert_map_composite (obj : Value) : Value :=
  match obj with
  | VMap items =>
      VDict (dict_of_items (map (fun kv => (fst kv, convert_map_composite (snd kv))) items))
  | VList l | VTuple l => VList (map convert_map_composite l)
  | _ => obj
  end.

(** Nesting depth of a value: scalars are 0, a container is one more than
    its deepest element. *)
Fixpoint depth (v : Value) : nat :=
  match v with
  | VList l | VTuple l => S (fold_right (fun x m => Nat.max (depth x) m) 0 l)
  | VDict d | VMap d => S (fold_right (fun kv m => Nat.max (depth (snd kv)) m) 0 d)
  | _ => 0
  end.

(** No tuple reachable through lists and tuples (dict contents are not
    inspected, as the walker does not enter plain dicts). *)
Fixpoint no_tuples (v : Value) : bool :=
  match v with
  | VList l => forallb no_tuples l
  | VTuple _ => false
  | _ => true
  end.

(** A plain value: no [MapComposite] anywhere in the tree. *)
Fixpoint plain (v : Value) : bool :=
  match v with
  | VList l | VTuple l => forallb plain l
  | VDict d => forallb (fun kv => plain (snd kv)) d
  | VMap _ => false
  | _ => true
  end.

(** ** Exceptions and effects *)

(** Python exceptions raised on the paths modelled here. *)
Inductive Err : Type :=
| KeyError (k : string)          (* [schema["name"]] on a dict without the key *)
| TypeError                       (* subscripting a value that is not a dict *)
| AttributeError (a : string)     (* [.items()] on a value that is not a dict *)
| SchemaError                     (* [json_schema_to_model] on invalid input *)
| FilterValidationError           (* raised by [validate_tools] *)
| ActionExecutionError (msg : string) (* raised by [execute_action] *)
| MalformedResponseError
| RecursionError                  (* the interpreter's recursion limit *).

Inductive result (A : Type) : Type :=
| Ok (a : A)
| Raise (e : Err).
Arguments Ok {A} a.
Arguments Raise {A} e.

(** One call of the external [execute_action]: action, params, entity id. *)
Record invocation := mk_invocation {
  inv_action : string;
  inv_params : Value;
  inv_entity : string
}.

(** What the outside world observes of a run: the actions executed, in
    order, and the warnings emitted, in order. *)
Record world := mk_world {
  w_calls : list invocation;
  w_warnings : list string
}.

Definition add_call (i : invocation) (w : world) : world :=
  mk_world (w_calls w ++ [i]) (w_warnings w).


(** Sequential code that may raise: a state-and-error monad.  After an
    exception nothing further runs. *)
Definition M (A : Type) : Type := world -> result A * world.

Definition ret {A} (a : A) : M A := fun w => (Ok a, w).

Definition bind {A B} (m : M A) (f : A -> M B) : M B :=
  fun w => match m w with
           | (Ok a, w') => f a w'
           | (Raise e, w') => (Raise e, w')
           end.

Definition lift {A} (r : result A) : M A := fun w => (r, w).

Notation "x <- m ;; k" := (bind m (fun x => k))
  (at level 61, m at next level, right associativity).

(** [[f(x) for x in xs]], evaluated left to right. *)
Fixpoint mapM {A B} (f : A -> M B) (xs : list A) : M (list B) :=
  match xs with
  | [] => ret []
  | x :: t => y <- f x ;; ys <- mapM f t ;; ret (y :: ys)
  end.

(** Map a fallible function over a list, left to right; the first
    exception propagates. *)
Fixpoint mapR {A B} (h : A -> result B) (l : list A) : result (list B) :=
  match l with
  | [] => Ok []
  | x :: t => match h x with
              | Ok y => match mapR h t with
                        | Ok ys => Ok (y :: ys)
                        | Raise err => Raise err
                        end
              | Raise err => Raise err
              end
  end.

(** The response walker run by the interpreter with [frames] calls left
    before Python's recursion limit: every call of [convert_map_composite]
    takes one frame, and a call with none left raises [RecursionError].
    The comprehensions evaluate left to right, as [mapR] does. *)
Fixpoint convert_map_composite_frames (frames : nat) (obj : Value) : result Value :=
  match frames with
  | 0 => Raise RecursionError
  | S f =>
      match obj with
      | VMap items =>
          match mapR (fun kv => match convert_map_composite_frames f (snd kv) with
                                | Ok v => Ok (fst kv, v)
                                | Raise err => Raise err
                                end) items with
          | Ok kvs => Ok (VDict (dict_of_items kvs))
          | Raise err => Raise err
          end
      | VList l | VTuple l =>
          match mapR (convert_map_composite_frames f) l with
          | Ok l' => Ok (VList l')
          | Raise err => Raise err
          end
      | _ => Ok obj
      end
  end.

(** [entity_id or self.entity_id]: [None] and the empty string are falsy. *)
Definition py_or (entity_id : option string) (default : string) : string :=
  match entity_id with
  | Some s => if String.eqb s EmptyString then default else s
  | None => default
  end.

(** [d[k]]: a dict, or a [MapComposite] (a [MutableMapping]). *)
Definition py_getitem (d : Value) (k : string) : result Value :=
  match d with
  | VDict kvs | VMap kvs =>
      match dict_lookup kvs k with
      | Some v => Ok v
      | None => Raise (KeyError k)
      end
  | _ => Raise TypeError
  end.

(** [d.items()] *)
Definition py_items (d : Value) : result (list (string * Value)) :=
  match d with
  | VDict kvs => Ok kvs
  | VMap kvs => Ok kvs
  | _ => Raise (AttributeError "items")
  end.

(** ** Vendor SDK objects *)

(** [vertexai.generative_models.FunctionDeclaration] *)
Record FunctionDeclaration := mk_FunctionDeclaration {
  fd_name : Value;
  fd_description : Value;
  fd_parameters : Value
}.

(** [vertexai.generative_models.Tool] *)
Record Tool := mk_Tool { function_declarations : list FunctionDeclaration }.

(** A [FunctionCall] of a response part: [function_call.name] and
    [function_call.args] ([VNone] when the args are [None]). *)
Record FunctionCall := mk_FunctionCall {
  fc_name : string;
  fc_args : Value
}.

(** A [Part]; [function_call] is [None] when the part carries no (truthy)
    function call. *)
Record Part := mk_Part { function_call : option FunctionCall }.

(** A candidate: [content_parts] is [None] when [candidate.content] has no
    [parts] attribute. *)
Record Candidate := mk_Candidate { content_parts : option (list Part) }.

(** [GenerationResponse] *)
Record GenerationResponse := mk_GenerationResponse {
  candidates : list Candidate
}.

(** ** The toolset *)

Section Toolset.
(** The external toolset [composio.tools.ComposioToolSet] and utilities. *)
Context {PModel ActionModel : Type}.
(** [json_schema_to_model]: raw JSON schema to a pydantic model class. *)
Variable json_schema_to_model : Value -> result PModel.
(** [model.schema()]: the normalized JSON schema of the model, a dict. *)
Variable model_schema : PModel -> list (string * Value).
(** [self.validate_tools(apps=..., actions=..., tags=...)] *)
Variable validate_tools :
  option (list string) -> option (list string) -> option (list string) -> result unit.
(** [self.get_action_schemas(actions=..., apps=..., tags=...)] *)
Variable get_action_schemas :
  option (list string) -> option (list string) -> option (list string)
  -> result (list ActionModel).
(** [tool.model_dump(exclude_none=True)] *)
Variable model_dump : ActionModel -> Value.
(** [Action(value=name)] *)
Variable Action : string -> result string.
(** The external execution engine: its answer may depend on the actions
    already executed through it. *)
Variable engine : list invocation -> string -> Value -> string -> result Value.
(** [self.entity_id] *)
Variable self_entity_id : string.

(** [self.execute_action(action=..., params=..., entity_id=...)] *)
Definition execute_action (action : string) (params : Value) (entity_id : string)
  : M Value :=
  fun w => (engine (w_calls w) action params entity_id,
            add_call (mk_invocation action params entity_id) w).

(** Removal of the [examples] key from one property schema (line 81). *)
Definition clean_prop (prop_schema : Value) : result (list (string * Value)) :=
  match py_items prop_schema with
  | Ok kvs => Ok (filter (fun kv => negb (String.eqb (fst kv) "examples")) kvs)
  | Raise e => Raise e
  end.

(** The loop of lines 79-82. *)
Fixpoint clean_properties (acc : list (string * Value)) (props : list (string * Value))
  : result (list (string * Value)) :=
  match props with
  | [] => Ok acc
  | (prop_name, prop_schema) :: t =>
      match clean_prop prop_schema with
      | Ok cleaned_prop => clean_properties (dict_set acc prop_name (VDict cleaned_prop)) t
      | Raise e => Raise e
      end
  end.

(** [_wrap_tool] (lines 67-95); [entity_id] is not used by the body. *)
Definition _wrap_tool (schema : Value) (entity_id : option string)
  : result FunctionDeclaration :=
  match py_getitem schema "name" with
  | Raise e => Raise e
  | Ok action =>
  let description :=
    match schema with
    | VDict kvs | VMap kvs => dict_get kvs "description" action
    | _ => action
    end in
  match py_getitem schema "parameters" with
  | Raise e => Raise e
  | Ok raw =>
  match json_schema_to_model raw with
  | Raise e => Raise e
  | Ok parameters =>
  let properties := dict_get (model_schema parameters) "properties" (VDict []) in
  match py_items properties with
  | Raise e => Raise e
  | Ok items =>
  match clean_properties [] items with
  | Raise e => Raise e
  | Ok cleaned_properties =>
  let cleaned_parameters :=
    VDict [("type", VStr "object");
           ("properties", VDict cleaned_properties);
           ("required", dict_get (model_schema parameters) "required" (VList []))] in
  Ok (mk_FunctionDeclaration action description cleaned_parameters)
  end end end end end.

(** [get_tool] (lines 113-143). *)
Definition get_tool (actions apps tags : option (list string))
  (entity_id : option string) : M Tool :=
  _ <- lift (validate_tools apps actions tags) ;;
  schemas <- lift (get_action_schemas actions apps tags) ;;
  fds <- mapM (fun tool => lift (_wrap_tool (model_dump tool)
                                   (Some (py_or entity_id self_entity_id)))) schemas ;;
  ret (mk_Tool fds).



(** [execute_function_call] as bound on the class: the definition of
    lines 199-226, which replaces the one of lines 145-172. *)
Definition execute_function_call (fc : FunctionCall) (entity_id : option string)
  : M Value :=
  let args := match fc_args fc with
              | VNone => VDict []
              | a => convert_map_composite a
              end in
  action <- lift (Action (fc_name fc)) ;;
  execute_action action args (py_or entity_id self_entity_id).

(** The inner loop of [handle_response] over the parts of one candidate. *)
Fixpoint handle_parts (parts : list Part) (entity_id : option string)
  (outputs : list Value) : M (list Value) :=
  match parts with
  | [] => ret outputs
  | part :: t =>
      match function_call part with
      | Some fc =>
          out <- execute_function_call fc (Some (py_or entity_id self_entity_id)) ;;
          handle_parts t entity_id (outputs ++ [out])
      | None => handle_parts t entity_id outputs
      end
  end.

Fixpoint handle_candidates (cands : list Candidate) (entity_id : option string)
  (outputs : list Value) : M (list Value) :=
  match cands with
  | [] => ret outputs
  | c :: t =>
      match content_parts c with
      | Some parts =>
          outputs' <- handle_parts parts entity_id outputs ;;
          handle_candidates t entity_id outputs'
      | None => handle_candidates t entity_id outputs
      end
  end.

(** [handle_response] (lines 174-197). *)
Definition handle_response (response : GenerationResponse) (entity_id : option string)
  : M (list Value) :=
  handle_candidates (candidates response) entity_id [].

(** The first definition of [execute_function_call] (lines 145-172), which
    the class body replaces by the one of lines 199-226: it walks
    [function_call.args] even when it is [None]. *)
Definition execute_function_call_first (fc : FunctionCall) (entity_id : option string)
  : M Value :=
  let args := convert_map_composite (fc_args fc) in
  action <- lift (Action (fc_name fc)) ;;
  execute_action action args (py_or entity_id self_entity_id).

(** The function calls of a response, candidates in order, parts in order. *)
Definition function_calls (response : GenerationResponse) : list FunctionCall :=
  flat_map (fun c => match content_parts c with
                     | Some parts => flat_map (fun p => match function_call p with
                                                        | Some fc => [fc]
                                                        | None => []
                                                        end) parts
                     | None => []
                     end) (candidates response).
End Toolset.

(** ** Concrete inputs *)

(** A vendor map nested [n] deep: [{"a": {"a": ... 0}}]. *)
Fixpoint nest_map (n : nat) : Value :=
  match n with
  | 0 => VInt 0
  | S m => VMap [("a", nest_map m)]
  end.

(** The plain dict of the same shape. *)
Fixpoint nest_dict (n : nat) : Value :=
  match n with
  | 0 => VInt 0
  | S m => VDict [("a", nest_dict m)]
  end.

(** Python truthiness of a value. *)
Definition py_truthy (v : Value) : bool :=
  match v with
  | VNone => false
  | VBool b => b
  | VInt z => negb (Z.eqb z 0)
  | VStr s => negb (String.eqb s EmptyString)
  | VList l | VTuple l => negb (Nat.eqb (List.length l) 0)
  | VDict d | VMap d => negb (Nat.eqb (List.length d) 0)
  end.

(** A toolset whose [Action] accepts every name. *)
Definition action_any (name : string) : result string := Ok name.

(** An engine that answers every call with the params it received. *)
Definition echo_engine (calls : list invocation) (action : string) (params : Value)
  (entity_id : string) : result Value :=
  Ok params.

(** An engine whose first call fails and whose later calls succeed. *)
Definition fail_first_engine (calls : list invocation) (action : string) (params : Value)
  (entity_id : string) : result Value :=
  match calls with
  | [] => Raise (ActionExecutionError "rate limited")
  | _ => Ok (VStr action)
  end.

(** An engine that itself reports a malformed response. *)
Definition malformed_engine (calls : list invocation) (action : string) (params : Value)
  (entity_id : string) : result Value :=
  Raise MalformedResponseError.

(** A schema normalizer that keeps the raw JSON schema as the model. *)
Definition schema_identity (raw : Value) : result Value := Ok raw.

(** A schema normalizer that rejects parameters that are not a dict. *)
Definition schema_strict (raw : Value) : result Value :=
  match raw with
  | VDict _ => Ok raw
  | _ => Raise SchemaError
  end.

Definition schema_of_dict (m : Value) : list (string * Value) :=
  match m with
  | VDict d => d
  | _ => []
  end.

(** A response with three function-call parts, one per candidate but the
    last candidate, which also carries a text part. *)
Definition three_calls_response : GenerationResponse :=
  mk_GenerationResponse
    [mk_Candidate (Some [mk_Part (Some (mk_FunctionCall "GITHUB_STAR_REPO" (VMap [("repo", VStr "composio")])))]);
     mk_Candidate None;
     mk_Candidate (Some [mk_Part None;
                         mk_Part (Some (mk_FunctionCall "SLACK_SEND" VNone));
                         mk_Part (Some (mk_FunctionCall "GITHUB_LIST" (VTuple [VInt 1])))])].

Definition empty_world : world := mk_world [] [].

(** The [properties] and [parameters] of [star_repo_schema]. *)
Definition star_repo_properties : list (string * Value) :=
  [("owner", VDict [("type", VStr "string"); ("examples", VList [VStr "composiohq"])]);
   ("repo", VDict [("examples", VList [VStr "composio"]); ("title", VStr "Repo")])].

Definition star_repo_parameters : Value :=
  VDict [("properties", VDict star_repo_properties);
         ("required", VList [VStr "owner"; VStr "repo"])].

(** The declaration [_wrap_tool] is expected to build from [star_repo_schema]. *)
Definition star_repo_declaration (description : Value) : FunctionDeclaration :=
  mk_FunctionDeclaration (VStr "GITHUB_STAR_REPO") description
    (VDict [("type", VStr "object");
            ("properties", VDict [("owner", VDict [("type", VStr "string")]);
                                  ("repo", VDict [("title", VStr "Repo")])]);
            ("required", VList [VStr "owner"; VStr "repo"])]).

(** A tool schema every property of which carries [examples]. *)
Definition star_repo_schema (description : Value) : Value :=
  VDict [("name", VStr "GITHUB_STAR_REPO");
         ("description", description);
         ("parameters",
          VDict [("properties",
                  VDict [("owner", VDict [("type", VStr "string"); ("examples", VList [VStr "composiohq"])]);
                         ("repo", VDict [("examples", VList [VStr "composio"]); ("title", VStr "Repo")])]);
                 ("required", VList [VStr "owner"; VStr "repo"])])].

(** A toolset that refuses a request without any filter. *)
Definition validate_some_filter (apps actions tags : option (list string)) : result unit :=
  match apps, actions, tags with
  | None, None, None => Raise FilterValidationError
  | _, _, _ => Ok tt
  end.

(** A catalog with the one schema [star_repo_schema]. *)
Definition star_repo_catalog (actions apps tags : option (list string)) : result (list Value) :=
  Ok [star_repo_schema (VStr "Star a repository")].

Definition dump_id (v : Value) : Value := v.

(** ** Lemmas on dicts *)

Lemma dict_set_new (d : list (string * Value)) (k : string) (v : Value) :
  ~ In k (map fst d) -> dict_set d k v = d ++ [(k, v)].
Proof.
  induction d as [|[k' v'] t IH]; simpl; intros Hn; [reflexivity|].
  destruct (String.eqb_spec k k') as [->|Hne]; [exfalso; auto|].
  rewrite IH; auto.
Qed.

Lemma dict_of_items_fold (l : list (string * Value)) : forall acc,
  NoDup (map fst (acc ++ l)) ->
  fold_left (fun d kv => dict_set d (fst kv) (snd kv)) l acc = acc ++ l.
Proof.
  induction l as [|[k v] t IH]; intros acc Hnd; simpl.
  - now rewrite app_nil_r.
  - rewrite map_app in Hnd. simpl in Hnd.
    rewrite dict_set_new.
    + rewrite IH; [now rewrite <- app_assoc|].
      rewrite <- app_assoc. rewrite map_app. exact Hnd.
    + intros Hin. apply NoDup_remove_2 in Hnd. apply Hnd, in_or_app; now left.
Qed.

Lemma dict_of_items_nodup (l : list (string * Value)) :
  NoDup (map fst l) -> dict_of_items l = l.
Proof. intros H. unfold dict_of_items. now rewrite dict_of_items_fold. Qed.

Lemma map_fst_map_snd {A B C} (f : B -> C) (l : list (A * B)) :
  map fst (map (fun kv => (fst kv, f (snd kv))) l) = map fst l.
Proof. rewrite map_map. reflexivity. Qed.

(** ** Lemmas on the walker *)

Lemma convert_map_composite_idem v :
  convert_map_composite (convert_map_composite v) = convert_map_composite v.
Proof.
  induction v using value_ind'; try reflexivity.
  - simpl. rewrite map_map. f_equal.
    induction H as [|x l Hx _ IH]; simpl; [reflexivity|].
    now rewrite Hx, IH.
  - simpl. rewrite map_map. f_equal.
    induction H as [|x l Hx _ IH]; simpl; [reflexivity|].
    now rewrite Hx, IH.
Qed.

Lemma convert_nest_map n : convert_map_composite (nest_map n) = nest_dict n.
Proof. induction n as [|n IH]; simpl; [reflexivity|]. now rewrite IH. Qed.

Lemma depth_nest_map n : depth (nest_map n) = n.
Proof. induction n as [|n IH]; simpl; [reflexivity|]. rewrite IH. lia. Qed.

Lemma depth_nest_dict n : depth (nest_dict n) = n.
Proof. induction n as [|n IH]; simpl; [reflexivity|]. rewrite IH. lia. Qed.

Lemma fold_max_in {A} (F : A -> nat) (l : list A) x :
  In x l -> F x <= fold_right (fun y m => Nat.max (F y) m) 0 l.
Proof.
  induction l as [|y t IH]; simpl; [intros []|].
  intros [->|H]; [lia|]. specialize (IH H). lia.
Qed.

Lemma mapR_ok_map {A B} (h : A -> result B) (g : A -> B) (l : list A) :
  (forall x, In x l -> h x = Ok (g x)) -> mapR h l = Ok (map g l).
Proof.
  induction l as [|x t IH]; simpl; intros H; [reflexivity|].
  rewrite (H x (or_introl eq_refl)), IH; [reflexivity|].
  intros y Hy. exact (H y (or_intror Hy)).
Qed.

Lemma mapR_ok_or_recursion {A B} (h : A -> result B) (g : A -> B) (l : list A) :
  (forall x, h x = Ok (g x) \/ h x = Raise RecursionError) ->
  mapR h l = Ok (map g l) \/ mapR h l = Raise RecursionError.
Proof.
  intros H. induction l as [|x t IH]; simpl; [left; reflexivity|].
  destruct (H x) as [Hx|Hx]; rewrite Hx; [|right; reflexivity].
  destruct IH as [Ht|Ht]; rewrite Ht; [left|right]; reflexivity.
Qed.

Lemma convert_frames_ok_or_recursion frames : forall v,
  convert_map_composite_frames frames v = Ok (convert_map_composite v) \/
  convert_map_composite_frames frames v = Raise RecursionError.
Proof.
  induction frames as [|f IH]; intros v; [right; reflexivity|].
  destruct v as [| | | |l|l|d|items]; simpl; try (left; reflexivity).
  - destruct (mapR_ok_or_recursion _ convert_map_composite l IH) as [H|H];
      rewrite H; [left|right]; reflexivity.
  - destruct (mapR_ok_or_recursion _ convert_map_composite l IH) as [H|H];
      rewrite H; [left|right]; reflexivity.
  - destruct (mapR_ok_or_recursion
                (fun kv => match convert_map_composite_frames f (snd kv) with
                           | Ok v => Ok (fst kv, v)
                           | Raise err => Raise err
                           end)
                (fun kv => (fst kv, convert_map_composite (snd kv))) items) as [H|H].
    + intros kv. destruct (IH (snd kv)) as [E|E]; rewrite E; [left|right]; reflexivity.
    + rewrite H. left. reflexivity.
    + rewrite H. right. reflexivity.
Qed.

Lemma convert_frames_within frames : forall v,
  depth v < frames -> convert_map_composite_frames frames v = Ok (convert_map_composite v).
Proof.
  induction frames as [|f IH]; intros v Hd; [lia|].
  destruct v as [| | | |l|l|d|items]; simpl in *; try reflexivity.
  - rewrite (mapR_ok_map _ convert_map_composite l); [reflexivity|].
    intros x Hx. apply IH.
    pose proof (fold_max_in depth l x Hx). lia.
  - rewrite (mapR_ok_map _ convert_map_composite l); [reflexivity|].
    intros x Hx. apply IH.
    pose proof (fold_max_in depth l x Hx). lia.
  - rewrite (mapR_ok_map _ (fun kv => (fst kv, convert_map_composite (snd kv))) items);
      [reflexivity|].
    intros kv Hkv. rewrite IH; [reflexivity|].
    pose proof (fold_max_in (fun kv => depth (snd kv)) items kv Hkv). simpl in *. lia.
Qed.

Lemma convert_frames_nest_map n : forall frames,
  frames <= n -> convert_map_composite_frames frames (nest_map n) = Raise RecursionError.
Proof.
  induction n as [|n IH]; intros [|f] Hf; simpl; try reflexivity; [lia|].
  rewrite IH; [reflexivity|lia].
Qed.

(** The example of the spec: [{a: {b: [1,2,3]}}] as vendor maps. *)
Example convert_spec_example :
  convert_map_composite
    (VMap [("a", VMap [("b", VList [VInt 1; VInt 2; VInt 3])])])
  = VDict [("a", VDict [("b", VList [VInt 1; VInt 2; VInt 3])])].
Proof. reflexivity. Qed.

(** ** Claims on the response walker *)

(** C2: the walker turns a vendor map into a plain dict with its keys, in
    their order, and its values walked; a list or a tuple into a list of
    the walked elements, in order; and returns anything else unchanged. *)
Theorem convert_map_composite_spec :
  (forall items, NoDup (map fst items) ->
     convert_map_composite (VMap items)
     = VDict (map (fun kv => (fst kv, convert_map_composite (snd kv))) items)) /\
  (forall l, convert_map_composite (VList l) = VList (map convert_map_composite l)) /\
  (forall l, convert_map_composite (VTuple l) = VList (map convert_map_composite l)) /\
  (forall v, (forall items, v <> VMap items) -> (forall l, v <> VList l) ->
             (forall l, v <> VTuple l) -> convert_map_composite v = v).
Proof.
  split; [|split; [|split]].
  - intros items Hnd. simpl. f_equal. apply dict_of_items_nodup.
    now rewrite map_fst_map_snd.
  - reflexivity.
  - reflexivity.
  - intros v H1 H2 H3.
    destruct v; try reflexivity; exfalso;
      first [exact (H1 _ eq_refl) | exact (H2 _ eq_refl) | exact (H3 _ eq_refl)].
Qed.

Lemma convert_map_composite_spec_witness :
  NoDup (map fst [("a", VMap [("b", VList [VInt 1; VInt 2; VInt 3])])]) /\
  convert_map_composite (VMap [("a", VMap [("b", VList [VInt 1; VInt 2; VInt 3])])])
  = VDict [("a", convert_map_composite (VMap [("b", VList [VInt 1; VInt 2; VInt 3])]))].
Proof.
  split.
  - simpl. constructor; [simpl; tauto | constructor].
  - apply (proj1 convert_map_composite_spec). simpl. constructor; [simpl; tauto | constructor].
Defined.

(** C8: on plain data (no vendor map) the walker is idempotent. *)
Theorem convert_map_composite_idem_plain x :
  plain x = true ->
  convert_map_composite (convert_map_composite x) = convert_map_composite x.
Proof. intros _. apply convert_map_composite_idem. Qed.

Lemma convert_map_composite_idem_plain_witness :
  plain (VTuple [VInt 1; VDict [("k", VList [VStr "s"; VNone])]]) = true /\
  convert_map_composite (convert_map_composite (VTuple [VInt 1; VDict [("k", VList [VStr "s"; VNone])]]))
  = convert_map_composite (VTuple [VInt 1; VDict [("k", VList [VStr "s"; VNone])]]).
Proof.
  split; [reflexivity|].
  apply convert_map_composite_idem_plain. reflexivity.
Defined.

(** C10: a plain dict is returned as it is, without walking its values: a
    vendor map stored in a plain dict stays a vendor map. *)
Theorem convert_map_composite_plain_dict :
  (forall d, convert_map_composite (VDict d) = VDict d) /\
  (forall k items,
     convert_map_composite (VDict [(k, VMap items)]) = VDict [(k, VMap items)]).
Proof. split; reflexivity. Qed.

(** ** Lemmas on the monad *)

Lemma mapM_app {A B} (f : A -> M B) (l1 l2 : list A) (w : world) :
  mapM f (l1 ++ l2) w
  = bind (mapM f l1) (fun r1 => bind (mapM f l2) (fun r2 => ret (r1 ++ r2))) w.
Proof.
  revert w. induction l1 as [|x t IH]; intros w; simpl; unfold bind, ret.
  - destruct (mapM f l2 w) as [[r|e] w']; reflexivity.
  - destruct (f x w) as [[y|e] w1]; [|reflexivity].
    fold (@bind (list B)). rewrite IH. unfold bind, ret.
    destruct (mapM f t w1) as [[r|e] w2]; [|reflexivity].
    destruct (mapM f l2 w2) as [[r'|e] w3]; reflexivity.
Qed.

Lemma mapM_ext {A B} (f g : A -> M B) (l : list A) :
  (forall x w, f x w = g x w) -> forall w, mapM f l w = mapM g l w.
Proof.
  intros Hfg. induction l as [|x t IH]; intros w; simpl; [reflexivity|].
  unfold bind. rewrite Hfg. destruct (g x w) as [[y|e] w1]; [|reflexivity].
  rewrite IH. reflexivity.
Qed.

Lemma py_or_idem e d : py_or (Some (py_or e d)) d = py_or e d.
Proof.
  destruct e as [s|]; simpl.
  - destruct (String.eqb_spec s EmptyString) as [->|Hs]; simpl.
    + destruct (String.eqb_spec d EmptyString) as [->|]; reflexivity.
    + destruct (String.eqb_spec s EmptyString) as [->|]; [congruence|reflexivity].
  - destruct (String.eqb_spec d EmptyString) as [->|]; reflexivity.
Qed.

(** The function calls of a list of parts, in order. *)
Definition part_calls (parts : list Part) : list FunctionCall :=
  flat_map (fun p => match function_call p with
                     | Some fc => [fc]
                     | None => []
                     end) parts.

Section Dispatch.
Variable Action : string -> result string.
Variable engine : list invocation -> string -> Value -> string -> result Value.
Variable self_entity_id : string.

Let exec := execute_function_call Action engine self_entity_id.

Lemma exec_entity_or fc e w :
  exec fc (Some (py_or e self_entity_id)) w = exec fc e w.
Proof. unfold exec, execute_function_call. now rewrite py_or_idem. Qed.

Lemma handle_parts_mapM parts e : forall outs w,
  handle_parts Action engine self_entity_id parts e outs w
  = bind (mapM (fun fc => exec fc e) (part_calls parts))
         (fun r => ret (outs ++ r)) w.
Proof.
  induction parts as [|p t IH]; intros outs w; simpl.
  - unfold bind, ret. now rewrite app_nil_r.
  - destruct (function_call p) as [fc|]; simpl.
    + unfold bind at 1. fold exec. rewrite exec_entity_or.
      unfold bind, ret.
      destruct (exec fc e w) as [[y|err] w1]; [|reflexivity].
      rewrite IH. unfold bind, ret.
      destruct (mapM (fun fc0 => exec fc0 e) (part_calls t) w1) as [[r|err] w2];
        [|reflexivity].
      now rewrite <- app_assoc.
    + apply IH.
Qed.

Lemma handle_candidates_mapM cands e : forall outs w,
  handle_candidates Action engine self_entity_id cands e outs w
  = bind (mapM (fun fc => exec fc e)
               (function_calls (mk_GenerationResponse cands)))
         (fun r => ret (outs ++ r)) w.
Proof.
  induction cands as [|c t IH]; intros outs w; simpl.
  - unfold bind, ret. now rewrite app_nil_r.
  - unfold function_calls in *. simpl in *.
    destruct (content_parts c) as [parts|]; simpl.
    + unfold bind at 1. rewrite handle_parts_mapM.
      change (flat_map (fun p => match function_call p with Some fc => [fc] | None => [] end) parts)
        with (part_calls parts).
      unfold bind, ret. rewrite mapM_app. unfold bind, ret.
      destruct (mapM (fun fc => exec fc e) (part_calls parts) w) as [[r1|err] w1];
        [|reflexivity].
      rewrite IH. unfold bind, ret.
      destruct (mapM (fun fc => exec fc e) _ w1) as [[r2|err] w2]; [|reflexivity].
      now rewrite <- app_assoc.
    + apply IH.
Qed.

End Dispatch.

Example handle_three_calls :
  handle_response action_any echo_engine "default" three_calls_response None empty_world
  = (Ok [VDict [("repo", VStr "composio")]; VDict []; VList [VInt 1]],
     mk_world [mk_invocation "GITHUB_STAR_REPO" (VDict [("repo", VStr "composio")]) "default";
               mk_invocation "SLACK_SEND" (VDict []) "default";
               mk_invocation "GITHUB_LIST" (VList [VInt 1]) "default"] []).
Proof. reflexivity. Qed.

(** ** Claims on the dispatcher *)

Section DispatchClaims.
Variable Action : string -> result string.
Variable engine : list invocation -> string -> Value -> string -> result Value.
Variable self_entity_id : string.

(** C3: [handle_response] runs [execute_function_call] once per part with a
    function call, candidates in order and parts in order, skipping parts
    without a call and candidates without [parts], and returns the results
    in that order; with no function-call part it returns the empty list. *)
Theorem handle_response_results response e :
  (forall w, handle_response Action engine self_entity_id response e w
     = mapM (fun fc => execute_function_call Action engine self_entity_id fc e)
            (function_calls response) w) /\
  (function_calls response = [] ->
   forall w, handle_response Action engine self_entity_id response e w = (Ok [], w)).
Proof.
  assert (Hall : forall w, handle_response Action engine self_entity_id response e w
     = mapM (fun fc => execute_function_call Action engine self_entity_id fc e)
            (function_calls response) w).
  { intros w. destruct response as [cands]. unfold handle_response. simpl.
    rewrite handle_candidates_mapM. unfold bind, ret.
    destruct (mapM _ _ w) as [[r|err] w']; reflexivity. }
  split; [exact Hall|].
  intros Hnil w. rewrite Hall, Hnil. reflexivity.
Qed.

(** C4: a call whose [args] is [None] runs exactly as the call with the
    empty dict: [execute_action] receives [{}]. *)
Theorem execute_function_call_none_args name e w :
  execute_function_call Action engine self_entity_id (mk_FunctionCall name VNone) e w
  = execute_function_call Action engine self_entity_id (mk_FunctionCall name (VDict [])) e w /\
  execute_function_call Action engine self_entity_id (mk_FunctionCall name VNone) e w
  = match Action name with
    | Ok act =>
        (engine (w_calls w) act (VDict []) (py_or e self_entity_id),
         add_call (mk_invocation act (VDict []) (py_or e self_entity_id)) w)
    | Raise err => (Raise err, w)
    end.
Proof.
  unfold execute_function_call, execute_action, bind, lift. simpl.
  split; destruct (Action name); reflexivity.
Qed.

(** C5: when the first [k-1] calls succeed and the [k]-th raises, the
    exception reaches the caller of [handle_response], with no result list,
    and the state is the one right after the [k]-th call: the calls after
    it never run. *)
Theorem handle_response_aborts response e pre fc post w outs w1 err w2 :
  function_calls response = pre ++ fc :: post ->
  mapM (fun c => execute_function_call Action engine self_entity_id c e) pre w = (Ok outs, w1) ->
  execute_function_call Action engine self_entity_id fc e w1 = (Raise err, w2) ->
  handle_response Action engine self_entity_id response e w = (Raise err, w2).
Proof.
  intros Hcalls Hpre Hfc.
  rewrite (proj1 (handle_response_results response e) w), Hcalls, mapM_app.
  unfold bind at 1. rewrite Hpre. cbn beta iota delta [mapM].
  unfold bind. rewrite Hfc. reflexivity.
Qed.

End DispatchClaims.

Lemma handle_response_results_witness :
  function_calls (mk_GenerationResponse [mk_Candidate None; mk_Candidate (Some [mk_Part None])]) = [] /\
  handle_response action_any echo_engine "default"
    (mk_GenerationResponse [mk_Candidate None; mk_Candidate (Some [mk_Part None])]) None empty_world
  = (Ok [], empty_world).
Proof.
  split; [reflexivity|].
  apply (proj2 (handle_response_results action_any echo_engine "default"
                  (mk_GenerationResponse [mk_Candidate None; mk_Candidate (Some [mk_Part None])]) None)).
  reflexivity.
Defined.

Lemma handle_response_aborts_witness :
  function_calls three_calls_response
    = [] ++ mk_FunctionCall "GITHUB_STAR_REPO" (VMap [("repo", VStr "composio")])
         :: [mk_FunctionCall "SLACK_SEND" VNone; mk_FunctionCall "GITHUB_LIST" (VTuple [VInt 1])] /\
  mapM (fun c => execute_function_call action_any fail_first_engine "default" c None) []
       empty_world = (Ok [], empty_world) /\
  execute_function_call action_any fail_first_engine "default"
    (mk_FunctionCall "GITHUB_STAR_REPO" (VMap [("repo", VStr "composio")])) None empty_world
  = (Raise (ActionExecutionError "rate limited"),
     mk_world [mk_invocation "GITHUB_STAR_REPO" (VDict [("repo", VStr "composio")]) "default"] []) /\
  handle_response action_any fail_first_engine "default" three_calls_response None empty_world
  = (Raise (ActionExecutionError "rate limited"),
     mk_world [mk_invocation "GITHUB_STAR_REPO" (VDict [("repo", VStr "composio")]) "default"] []).
Proof.
  split; [reflexivity|]. split; [reflexivity|]. split; [reflexivity|].
  apply (handle_response_aborts action_any fail_first_engine "default" three_calls_response None
           [] (mk_FunctionCall "GITHUB_STAR_REPO" (VMap [("repo", VStr "composio")]))
           [mk_FunctionCall "SLACK_SEND" VNone; mk_FunctionCall "GITHUB_LIST" (VTuple [VInt 1])]
           empty_world [] empty_world); reflexivity.
Defined.

(** C6 (as the code has it): the walker has no recursion-depth cap of its
    own and never raises [MalformedResponseError].  Run with any number of
    frames left before the interpreter's recursion limit, it returns the
    converted value or raises Python's [RecursionError], nothing else; it
    returns the converted value whenever the input is nested less deep than
    the frames left; and a vendor map nested [n] deep, run with at most [n]
    frames left, does raise [RecursionError]. *)
Theorem walker_recursion_limit_only :
  (forall frames v,
     convert_map_composite_frames frames v = Ok (convert_map_composite v) \/
     convert_map_composite_frames frames v = Raise RecursionError) /\
  (forall frames v, depth v < frames ->
     convert_map_composite_frames frames v = Ok (convert_map_composite v)) /\
  (forall n frames, frames <= n ->
     convert_map_composite_frames frames (nest_map n) = Raise RecursionError).
Proof.
  split; [|split].
  - intros frames v. apply convert_frames_ok_or_recursion.
  - intros frames v. apply convert_frames_within.
  - intros n frames. apply convert_frames_nest_map.
Qed.

Lemma walker_recursion_limit_only_witness :
  depth (nest_map 3) < 4 /\
  convert_map_composite_frames 4 (nest_map 3) = Ok (nest_dict 3) /\
  3 <= 3 /\
  convert_map_composite_frames 3 (nest_map 3) = Raise RecursionError.
Proof.
  split; [vm_compute; lia|]. split.
  - change (nest_dict 3) with (convert_map_composite (nest_map 3)).
    apply (proj1 (proj2 walker_recursion_limit_only) 4 (nest_map 3)). vm_compute. lia.
  - split; [lia|]. apply (proj2 (proj2 walker_recursion_limit_only) 3 3). lia.
Defined.

(** C6 as stated fails: no depth cap makes deep inputs raise
    [MalformedResponseError]; a deeper input than any cap is converted and
    executed. *)
Lemma depth_cap_counterexample :
  ~ (exists cap : nat, forall v, cap < depth v -> forall w,
       fst (execute_function_call action_any echo_engine "default"
              (mk_FunctionCall "GITHUB_STAR_REPO" v) None w)
       = Raise MalformedResponseError).
Proof.
  intros [cap H].
  specialize (H (nest_map (S cap))). rewrite depth_nest_map in H.
  specialize (H ltac:(lia) empty_world).
  cbn in H. discriminate H.
Qed.

(** ** Lemmas on the schema wrapper *)

Lemma dict_set_in d k v k' v' :
  In (k', v') (dict_set d k v) -> In (k', v') d \/ (k', v') = (k, v).
Proof.
  induction d as [|[k0 v0] t IH]; simpl; intros H.
  - destruct H as [H|[]]. right. now symmetry.
  - destruct (String.eqb_spec k k0) as [->|Hne]; simpl in H.
    + destruct H as [H|H]; [right; congruence | left; right; exact H].
    + destruct H as [H|H]; [left; left; exact H|].
      destruct (IH H) as [H'|H']; [left; right; exact H' | right; exact H'].
Qed.

Lemma filter_examples_free (d0 : list (string * Value)) :
  ~ In "examples" (map fst (filter (fun kv => negb (String.eqb (fst kv) "examples")) d0)).
Proof.
  intros Hin. apply in_map_iff in Hin as [[k v] [Hk Hin]]. simpl in Hk. subst k.
  apply filter_In in Hin as [_ Hf]. simpl in Hf. discriminate Hf.
Qed.

Lemma clean_properties_in props : forall acc cleaned,
  clean_properties acc props = Ok cleaned ->
  forall pn p, In (pn, p) cleaned ->
  In (pn, p) acc \/
  exists ps d0, In (pn, ps) props /\ py_items ps = Ok d0 /\
    p = VDict (filter (fun kv => negb (String.eqb (fst kv) "examples")) d0).
Proof.
  induction props as [|[pn0 ps0] t IH]; simpl; intros acc cleaned H pn p Hin.
  - injection H as <-. left. exact Hin.
  - unfold clean_prop in H. destruct (py_items ps0) as [d0|err] eqn:Hps; [|discriminate H].
    destruct (IH _ _ H pn p Hin) as [Hacc|[ps [d1 [Hin' [Hd1 Hp]]]]].
    + apply dict_set_in in Hacc as [Hacc|Heq]; [left; exact Hacc|].
      injection Heq as -> ->. right. exists ps0, d0. simpl. auto.
    + right. exists ps, d1. simpl. auto.
Qed.

Lemma lift_app {A} (r : result A) (w : world) : lift r w = (r, w).
Proof. reflexivity. Qed.


(** ** Claims on the schema wrapper and the listing *)

Section WrapClaims.
Context {PModel ActionModel : Type}.
Variable json_schema_to_model : Value -> result PModel.
Variable model_schema : PModel -> list (string * Value).
Variable validate_tools :
  option (list string) -> option (list string) -> option (list string) -> result unit.
Variable get_action_schemas :
  option (list string) -> option (list string) -> option (list string)
  -> result (list ActionModel).
Variable model_dump : ActionModel -> Value.
Variable self_entity_id : string.

(** C1: the declaration built by [_wrap_tool] has the parameters
    [{"type": "object", "properties": ..., "required": ...}]; every property
    is a property of the normalized schema with the key [examples] removed
    and all its other keys kept, so no property has an [examples] key; and
    [required] is the normalized schema's [required], or [[]] without one. *)
Theorem wrap_tool_cleaned schema e fd :
  _wrap_tool json_schema_to_model model_schema schema e = Ok fd ->
  exists raw m props cleaned,
    py_getitem schema "parameters" = Ok raw /\
    json_schema_to_model raw = Ok m /\
    py_items (dict_get (model_schema m) "properties" (VDict [])) = Ok props /\
    fd_parameters fd
    = VDict [("type", VStr "object");
             ("properties", VDict cleaned);
             ("required", dict_get (model_schema m) "required" (VList []))] /\
    (forall pn p, In (pn, p) cleaned ->
       exists ps d0, In (pn, ps) props /\ py_items ps = Ok d0 /\
         p = VDict (filter (fun kv => negb (String.eqb (fst kv) "examples")) d0) /\
         ~ In "examples" (map fst (filter (fun kv => negb (String.eqb (fst kv) "examples")) d0))).
Proof.
  unfold _wrap_tool.
  destruct (py_getitem schema "name") as [action|err]; [|discriminate].
  destruct (py_getitem schema "parameters") as [raw|err]; [|discriminate].
  destruct (json_schema_to_model raw) as [m|err] eqn:Hm; [|discriminate].
  destruct (py_items (dict_get (model_schema m) "properties" (VDict []))) as [props|err] eqn:Hp;
    [|discriminate].
  destruct (clean_properties [] props) as [cleaned|err] eqn:Hc; [|discriminate].
  intros Hfd. injection Hfd as <-.
  exists raw, m, props, cleaned. repeat split; try reflexivity; try assumption.
  intros pn p Hin.
  destruct (clean_properties_in props [] cleaned Hc pn p Hin) as [[]|[ps [d0 [H1 [H2 H3]]]]].
  exists ps, d0. repeat split; try assumption. apply filter_examples_free.
Qed.

(** C7 (as the code has it): the description is [schema["description"]]
    whenever the key is present, whatever its value, and [schema["name"]]
    only when the key is absent (for a dict, or a [MapComposite], whose
    [get] behaves the same). *)
Theorem wrap_tool_description schema e fd :
  _wrap_tool json_schema_to_model model_schema schema e = Ok fd ->
  exists d name, (schema = VDict d \/ schema = VMap d) /\ dict_lookup d "name" = Some name /\
    fd_name fd = name /\
    fd_description fd = match dict_lookup d "description" with
                        | Some x => x
                        | None => name
                        end.
Proof.
  unfold _wrap_tool, py_getitem.
  destruct schema as [| | | | | | d | d]; try discriminate;
  (destruct (dict_lookup d "name") as [name|] eqn:Hn; [|discriminate]);
  (destruct (dict_lookup d "parameters") as [raw|]; [|discriminate]);
  (destruct (json_schema_to_model raw) as [m|err]; [|discriminate]);
  (destruct (py_items _) as [props|err]; [|discriminate]);
  (destruct (clean_properties [] props) as [cleaned|err]; [|discriminate]);
  intros Hfd; injection Hfd as <-; exists d, name.
  - split; [left; reflexivity|]. repeat split; assumption.
  - split; [right; reflexivity|]. repeat split; assumption.
Qed.



End WrapClaims.

Lemma wrap_tool_cleaned_witness :
  _wrap_tool schema_identity schema_of_dict (star_repo_schema (VStr "Star a repository")) None
  = Ok (star_repo_declaration (VStr "Star a repository")) /\
  exists raw m props cleaned,
    py_getitem (star_repo_schema (VStr "Star a repository")) "parameters" = Ok raw /\
    schema_identity raw = Ok m /\
    py_items (dict_get (schema_of_dict m) "properties" (VDict [])) = Ok props /\
      fd_parameters (star_repo_declaration (VStr "Star a repository"))
    = VDict [("type", VStr "object");
             ("properties", VDict cleaned);
             ("required", dict_get (schema_of_dict m) "required" (VList []))] /\
    (forall pn p, In (pn, p) cleaned ->
       exists ps d0, In (pn, ps) props /\ py_items ps = Ok d0 /\
         p = VDict (filter (fun kv => negb (String.eqb (fst kv) "examples")) d0) /\
         ~ In "examples" (map fst (filter (fun kv => negb (String.eqb (fst kv) "examples")) d0))).
Proof.
  split; [reflexivity|].
  apply (wrap_tool_cleaned schema_identity schema_of_dict
           (star_repo_schema (VStr "Star a repository")) None
           (star_repo_declaration (VStr "Star a repository"))).
  reflexivity.
Defined.

Lemma wrap_tool_description_witness :
  _wrap_tool schema_identity schema_of_dict (star_repo_schema (VStr EmptyString)) None
  = Ok (star_repo_declaration (VStr EmptyString)) /\
  exists d name, (star_repo_schema (VStr EmptyString) = VDict d \/
                  star_repo_schema (VStr EmptyString) = VMap d) /\
    dict_lookup d "name" = Some name /\
    fd_name (star_repo_declaration (VStr EmptyString)) = name /\
    fd_description (star_repo_declaration (VStr EmptyString)) = match dict_lookup d "description" with
              | Some x => x
              | None => name
              end.
Proof.
  split; [reflexivity|].
  apply (wrap_tool_description schema_identity schema_of_dict (star_repo_schema (VStr EmptyString)) None
           (star_repo_declaration (VStr EmptyString))).
  reflexivity.
Defined.

(** C7 as stated fails: a present but empty description is kept, it does
    not fall back to the name. *)
Lemma falsy_description_counterexample :
  ~ (forall schema fd,
       _wrap_tool schema_identity schema_of_dict schema None = Ok fd ->
       forall d name, schema = VDict d -> dict_lookup d "name" = Some name ->
       fd_description fd = match dict_lookup d "description" with
                           | Some x => if py_truthy x then x else name
                           | None => name
                           end).
Proof.
  intros H.
  specialize (H (star_repo_schema (VStr EmptyString))
                (star_repo_declaration (VStr EmptyString))
                eq_refl _ (VStr "GITHUB_STAR_REPO") eq_refl eq_refl).
  simpl in H. discriminate H.
Qed.

(** ** Further properties of the walker *)

(** Plain data stays plain under the walker, and plain data with no tuple
    along its lists is returned as it is. *)
Theorem convert_plain_data x :
  plain x = true ->
  plain (convert_map_composite x) = true /\
  (no_tuples x = true -> convert_map_composite x = x).
Proof.
  induction x using value_ind'; simpl; intros Hp; try (split; [exact Hp|reflexivity]);
    try discriminate.
  - split.
    + rewrite forallb_forall in *. intros y Hy. apply in_map_iff in Hy as [z [<- Hz]].
      rewrite Forall_forall in H. apply (H z Hz (Hp z Hz)).
    + intros Hn. f_equal. induction H as [|z l Hz _ IH]; simpl in *; [reflexivity|].
      apply andb_prop in Hp as [Hpz Hpl]. apply andb_prop in Hn as [Hnz Hnl].
      rewrite (proj2 (Hz Hpz) Hnz), (IH Hpl Hnl). reflexivity.
  - split; [|discriminate].
    rewrite forallb_forall in *. intros y Hy. apply in_map_iff in Hy as [z [<- Hz]].
    rewrite Forall_forall in H. apply (H z Hz (Hp z Hz)).
Qed.

Lemma convert_plain_data_witness :
  plain (VList [VInt 1; VDict [("k", VTuple [VStr "s"])]; VList [VNone]]) = true /\
  plain (convert_map_composite (VList [VInt 1; VDict [("k", VTuple [VStr "s"])]; VList [VNone]])) = true /\
  (no_tuples (VList [VInt 1; VDict [("k", VTuple [VStr "s"])]; VList [VNone]]) = true ->
   convert_map_composite (VList [VInt 1; VDict [("k", VTuple [VStr "s"])]; VList [VNone]])
   = VList [VInt 1; VDict [("k", VTuple [VStr "s"])]; VList [VNone]]).
Proof.
  split; [reflexivity|].
  apply convert_plain_data. reflexivity.
Defined.

(** The walker's result is never a vendor map, and no tuple is left along
    its lists: every tuple reachable through lists and tuples has become a
    list. *)
Theorem convert_output_shape v :
  no_tuples (convert_map_composite v) = true /\
  (forall items, convert_map_composite v <> VMap items).
Proof.
  split.
  - induction v using value_ind'; simpl; try reflexivity.
    + rewrite forallb_forall. intros y Hy. apply in_map_iff in Hy as [z [<- Hz]].
      rewrite Forall_forall in H. exact (H z Hz).
    + rewrite forallb_forall. intros y Hy. apply in_map_iff in Hy as [z [<- Hz]].
      rewrite Forall_forall in H. exact (H z Hz).
  - intros items. destruct v; simpl; discriminate.
Qed.

(** ** Further lemmas on the schema wrapper *)

Lemma py_items_error v err : py_items v = Raise err -> err = AttributeError "items".
Proof. destruct v; simpl; intros H; try discriminate; now injection H. Qed.

Lemma clean_properties_not_mapping props : forall acc pn ps,
  In (pn, ps) props -> py_items ps = Raise (AttributeError "items") ->
  clean_properties acc props = Raise (AttributeError "items").
Proof.
  induction props as [|[pn0 ps0] t IH]; simpl; intros acc pn ps Hin Hps; [destruct Hin|].
  unfold clean_prop. destruct (py_items ps0) as [d0|err] eqn:H0.
  - destruct Hin as [Heq|Hin]; [injection Heq as -> ->; congruence|].
    exact (IH _ _ _ Hin Hps).
  - now rewrite (py_items_error _ _ H0).
Qed.

Lemma clean_properties_keys props : forall acc cleaned,
  clean_properties acc props = Ok cleaned ->
  NoDup (map fst acc ++ map fst props) ->
  map fst cleaned = map fst acc ++ map fst props.
Proof.
  induction props as [|[pn ps] t IH]; simpl; intros acc cleaned H Hnd.
  - injection H as <-. now rewrite app_nil_r.
  - unfold clean_prop in H. destruct (py_items ps) as [d0|err]; [|discriminate].
    rewrite dict_set_new in H.
    + rewrite (IH _ _ H).
      * rewrite map_app. simpl. now rewrite <- app_assoc.
      * rewrite map_app. simpl. now rewrite <- app_assoc.
    + intros Hin. apply NoDup_remove_2 in Hnd. apply Hnd, in_or_app. now left.
Qed.

Section WrapExtras.
Context {PModel : Type}.
Variable json_schema_to_model : Value -> result PModel.
Variable model_schema : PModel -> list (string * Value).

(** [_wrap_tool] on a malformed tool schema: a value that is neither a
    dict nor a [MapComposite] raises [TypeError], a dict or [MapComposite]
    without [name] raises [KeyError('name')], and one with [name] but
    without [parameters] raises [KeyError('parameters')]. *)
Theorem wrap_tool_missing_keys schema e :
  ((forall d, schema <> VDict d) -> (forall d, schema <> VMap d) ->
   _wrap_tool json_schema_to_model model_schema schema e = Raise TypeError) /\
  (forall d, (schema = VDict d \/ schema = VMap d) -> dict_lookup d "name" = None ->
   _wrap_tool json_schema_to_model model_schema schema e = Raise (KeyError "name")) /\
  (forall d name, (schema = VDict d \/ schema = VMap d) -> dict_lookup d "name" = Some name ->
   dict_lookup d "parameters" = None ->
   _wrap_tool json_schema_to_model model_schema schema e = Raise (KeyError "parameters")).
Proof.
  unfold _wrap_tool, py_getitem. split; [|split].
  - intros H1 H2. destruct schema as [| | | | | | d | d]; try reflexivity; exfalso;
      [exact (H1 d eq_refl) | exact (H2 d eq_refl)].
  - intros d [-> | ->] Hn; now rewrite Hn.
  - intros d name [-> | ->] Hn Hp; now rewrite Hn, Hp.
Qed.

(** A failure of the schema normalizer [json_schema_to_model] on the
    [parameters] of a tool is raised by [_wrap_tool] as it is. *)
Theorem wrap_tool_normalizer_error schema e name raw err :
  py_getitem schema "name" = Ok name ->
  py_getitem schema "parameters" = Ok raw ->
  json_schema_to_model raw = Raise err ->
  _wrap_tool json_schema_to_model model_schema schema e = Raise err.
Proof. intros Hn Hp Hj. unfold _wrap_tool. now rewrite Hn, Hp, Hj. Qed.

(** When the normalized [properties] is not a mapping, or one property's
    schema is not a mapping (a boolean JSON schema, say), [_wrap_tool]
    raises [AttributeError] from [.items()]. *)
Theorem wrap_tool_not_mapping schema e name raw m :
  py_getitem schema "name" = Ok name ->
  py_getitem schema "parameters" = Ok raw ->
  json_schema_to_model raw = Ok m ->
  ((forall d, dict_get (model_schema m) "properties" (VDict []) <> VDict d) ->
   (forall d, dict_get (model_schema m) "properties" (VDict []) <> VMap d) ->
   _wrap_tool json_schema_to_model model_schema schema e = Raise (AttributeError "items")) /\
  (forall props pn ps,
     py_items (dict_get (model_schema m) "properties" (VDict [])) = Ok props ->
     In (pn, ps) props -> py_items ps = Raise (AttributeError "items") ->
     _wrap_tool json_schema_to_model model_schema schema e = Raise (AttributeError "items")).
Proof.
  intros Hn Hp Hj. unfold _wrap_tool. rewrite Hn, Hp, Hj. split.
  - intros H1 H2. destruct (dict_get (model_schema m) "properties" (VDict [])) eqn:Hg;
      try reflexivity; exfalso; [exact (H1 d eq_refl) | exact (H2 items eq_refl)].
  - intros props pn ps Hprops Hin Hps. rewrite Hprops.
    now rewrite (clean_properties_not_mapping props [] pn ps Hin Hps).
Qed.

(** With distinct property names, the declaration lists the properties
    under the same names and in the same order as the normalized schema. *)
Theorem wrap_tool_property_order schema e fd raw m props :
  py_getitem schema "parameters" = Ok raw ->
  json_schema_to_model raw = Ok m ->
  py_items (dict_get (model_schema m) "properties" (VDict [])) = Ok props ->
  NoDup (map fst props) ->
  _wrap_tool json_schema_to_model model_schema schema e = Ok fd ->
  exists cleaned,
    fd_parameters fd
    = VDict [("type", VStr "object");
             ("properties", VDict cleaned);
             ("required", dict_get (model_schema m) "required" (VList []))] /\
    map fst cleaned = map fst props.
Proof.
  intros Hp Hj Hprops Hnd. unfold _wrap_tool.
  destruct (py_getitem schema "name") as [name|err]; [|discriminate].
  rewrite Hp, Hj, Hprops.
  destruct (clean_properties [] props) as [cleaned|err] eqn:Hc; [|discriminate].
  intros Hfd. injection Hfd as <-. exists cleaned. split; [reflexivity|].
  exact (clean_properties_keys props [] cleaned Hc Hnd).
Qed.

End WrapExtras.

Lemma wrap_tool_missing_keys_witness :
  (VMap [("description", VStr "no name")] = VDict [("description", VStr "no name")] \/
   VMap [("description", VStr "no name")] = VMap [("description", VStr "no name")]) /\
  dict_lookup [("description", VStr "no name")] "name" = None /\
  _wrap_tool schema_identity schema_of_dict (VMap [("description", VStr "no name")]) None
  = Raise (KeyError "name").
Proof.
  split; [right; reflexivity|]. split; [reflexivity|].
  apply (proj1 (proj2 (wrap_tool_missing_keys schema_identity schema_of_dict
                         (VMap [("description", VStr "no name")]) None))
           [("description", VStr "no name")]); [right|]; reflexivity.
Defined.

Lemma wrap_tool_normalizer_error_witness :
  py_getitem (VDict [("name", VStr "T"); ("parameters", VStr "oops")]) "name" = Ok (VStr "T") /\
  py_getitem (VDict [("name", VStr "T"); ("parameters", VStr "oops")]) "parameters"
  = Ok (VStr "oops") /\
  schema_strict (VStr "oops") = Raise SchemaError /\
  _wrap_tool schema_strict schema_of_dict
    (VDict [("name", VStr "T"); ("parameters", VStr "oops")]) None = Raise SchemaError.
Proof.
  split; [reflexivity|]. split; [reflexivity|]. split; [reflexivity|].
  apply (wrap_tool_normalizer_error schema_strict schema_of_dict
           (VDict [("name", VStr "T"); ("parameters", VStr "oops")]) None
           (VStr "T") (VStr "oops") SchemaError); reflexivity.
Defined.

Lemma wrap_tool_not_mapping_witness :
  py_items (dict_get (schema_of_dict (VDict [("properties", VDict [("flag", VBool true)])]))
              "properties" (VDict [])) = Ok [("flag", VBool true)] /\
  In ("flag", VBool true) [("flag", VBool true)] /\
  py_items (VBool true) = Raise (AttributeError "items") /\
  _wrap_tool schema_identity schema_of_dict
    (VDict [("name", VStr "T");
            ("parameters", VDict [("properties", VDict [("flag", VBool true)])])]) None
  = Raise (AttributeError "items").
Proof.
  split; [reflexivity|]. split; [simpl; auto|]. split; [reflexivity|].
  apply (proj2 (wrap_tool_not_mapping schema_identity schema_of_dict
                  (VDict [("name", VStr "T");
                          ("parameters", VDict [("properties", VDict [("flag", VBool true)])])])
                  None (VStr "T") (VDict [("properties", VDict [("flag", VBool true)])])
                  (VDict [("properties", VDict [("flag", VBool true)])])
                  eq_refl eq_refl eq_refl)
           [("flag", VBool true)] "flag" (VBool true)); simpl; auto.
Defined.

Lemma wrap_tool_property_order_witness :
  NoDup (map fst star_repo_properties) /\
  exists cleaned,
    fd_parameters (star_repo_declaration (VStr "Star a repository"))
    = VDict [("type", VStr "object");
             ("properties", VDict cleaned);
             ("required", dict_get (schema_of_dict star_repo_parameters) "required" (VList []))] /\
    map fst cleaned = map fst star_repo_properties.
Proof.
  split.
  - simpl. constructor; [simpl; intros [H|[]]; discriminate H|].
    constructor; [simpl; tauto|constructor].
  - apply (wrap_tool_property_order schema_identity schema_of_dict
             (star_repo_schema (VStr "Star a repository")) None
             (star_repo_declaration (VStr "Star a repository"))
             star_repo_parameters star_repo_parameters star_repo_properties);
      try reflexivity.
    simpl. constructor; [simpl; intros [H|[]]; discriminate H|].
    constructor; [simpl; tauto|constructor].
Defined.

(** ** Further lemmas on the listing and the dispatcher *)



Section ListingExtras.
Context {PModel ActionModel : Type}.
Variable json_schema_to_model : Value -> result PModel.
Variable model_schema : PModel -> list (string * Value).
Variable validate_tools :
  option (list string) -> option (list string) -> option (list string) -> result unit.
Variable get_action_schemas :
  option (list string) -> option (list string) -> option (list string)
  -> result (list ActionModel).
Variable model_dump : ActionModel -> Value.
Variable self_entity_id : string.

Let get_tool' := get_tool json_schema_to_model model_schema validate_tools get_action_schemas
                   model_dump self_entity_id.

(** [get_tool] raises the error of [validate_tools] before fetching any
    schema, and then the error of [get_action_schemas]; the state is left
    as it is. *)
Theorem get_tool_early_errors actions apps tags e w err :
  (validate_tools apps actions tags = Raise err ->
   get_tool' actions apps tags e w = (Raise err, w)) /\
  (validate_tools apps actions tags = Ok tt ->
   get_action_schemas actions apps tags = Raise err ->
   get_tool' actions apps tags e w = (Raise err, w)).
Proof.
  unfold get_tool', get_tool, bind. split.
  - intros Hv. rewrite lift_app, Hv. reflexivity.
  - intros Hv Hs. rewrite lift_app, Hv. cbv beta iota. rewrite lift_app, Hs. reflexivity.
Qed.


End ListingExtras.

Lemma get_tool_early_errors_witness :
  validate_some_filter None None None = Raise FilterValidationError /\
  get_tool schema_identity schema_of_dict validate_some_filter star_repo_catalog dump_id
    "default" None None None None empty_world
  = (Raise FilterValidationError, empty_world).
Proof.
  split; [reflexivity|].
  apply (proj1 (get_tool_early_errors schema_identity schema_of_dict validate_some_filter
                  star_repo_catalog dump_id "default" None None None None empty_world
                  FilterValidationError)).
  reflexivity.
Defined.


Section DispatchExtras.
Variable Action : string -> result string.
Variable engine : list invocation -> string -> Value -> string -> result Value.
Variable self_entity_id : string.

Lemma execute_function_call_effect fc e w r w' :
  execute_function_call Action engine self_entity_id fc e w = (r, w') ->
  exists new, w_calls w' = w_calls w ++ new /\ w_warnings w' = w_warnings w /\
    Forall (fun i => inv_entity i = py_or e self_entity_id) new /\
    List.length new <= 1 /\ (forall o, r = Ok o -> List.length new = 1).
Proof.
  unfold execute_function_call, execute_action, bind. rewrite lift_app.
  destruct (Action (fc_name fc)) as [act|err]; intros H; injection H as <- <-.
  - eexists. split; [reflexivity|]. split; [reflexivity|].
    split; [constructor; [reflexivity|constructor]|].
    split; [simpl; lia | reflexivity].
  - exists []. split; [now rewrite app_nil_r|]. split; [reflexivity|].
    split; [constructor|]. split; [simpl; lia | discriminate].
Qed.

Lemma mapM_execute_effect e fcs : forall w r w',
  mapM (fun fc => execute_function_call Action engine self_entity_id fc e) fcs w = (r, w') ->
  exists new, w_calls w' = w_calls w ++ new /\ w_warnings w' = w_warnings w /\
    Forall (fun i => inv_entity i = py_or e self_entity_id) new /\
    List.length new <= List.length fcs /\
    (forall outs, r = Ok outs -> List.length outs = List.length fcs /\ List.length new = List.length fcs).
Proof.
  induction fcs as [|fc t IH]; intros w r w' H; simpl in H; unfold bind, ret in H.
  - injection H as <- <-. exists [].
    split; [now rewrite app_nil_r|]. split; [reflexivity|]. split; [constructor|].
    split; [simpl; lia|].
    intros outs Hr. injection Hr as <-. split; reflexivity.
  - destruct (execute_function_call Action engine self_entity_id fc e w) as [[o|err] w1] eqn:H1.
    + destruct (execute_function_call_effect _ _ _ _ _ H1) as [n1 [Hc1 [Hw1 [Hf1 [_ Hl1]]]]].
      specialize (Hl1 o eq_refl).
      destruct (mapM _ t w1) as [[os|err] w2] eqn:H2; injection H as <- <-;
        destruct (IH _ _ _ H2) as [n2 [Hc2 [Hw2 [Hf2 [Hle2 Hl2]]]]];
        exists (n1 ++ n2); rewrite Hc2, Hc1, <- app_assoc.
      * split; [reflexivity|]. split; [congruence|]. split; [apply Forall_app; auto|].
        split; [rewrite length_app; simpl; lia|].
        intros outs Hr. injection Hr as <-. destruct (Hl2 os eq_refl) as [Ha Hb].
        simpl. rewrite length_app. lia.
      * split; [reflexivity|]. split; [congruence|]. split; [apply Forall_app; auto|].
        split; [rewrite length_app; simpl; lia|].
        discriminate.
    + injection H as <- <-.
      destruct (execute_function_call_effect _ _ _ _ _ H1) as [n1 [Hc1 [Hw1 [Hf1 [Hle1 _]]]]].
      exists n1. split; [exact Hc1|]. split; [exact Hw1|]. split; [exact Hf1|].
      split; [simpl; lia | discriminate].
Qed.

(** [handle_response] only appends to the actions executed and emits no
    warning; every action it executes runs under [entity_id or
    self.entity_id]; it executes at most one action per function-call part,
    and when it returns, exactly one, with one output per function-call
    part. *)
Theorem handle_response_effects response e w r w' :
  handle_response Action engine self_entity_id response e w = (r, w') ->
  exists new, w_calls w' = w_calls w ++ new /\ w_warnings w' = w_warnings w /\
    Forall (fun i => inv_entity i = py_or e self_entity_id) new /\
    List.length new <= List.length (function_calls response) /\
    (forall outs, r = Ok outs ->
       List.length outs = List.length (function_calls response) /\
       List.length new = List.length (function_calls response)).
Proof.
  destruct response as [cands]. unfold handle_response. simpl.
  rewrite handle_candidates_mapM. unfold bind, ret.
  destruct (mapM _ _ w) as [r0 w0] eqn:Hm.
  destruct (mapM_execute_effect e _ _ _ _ Hm) as [n [Hc [Hw [Hf [Hle Hl]]]]].
  destruct r0 as [outs0|err]; intros H; injection H as <- <-; exists n;
    (split; [exact Hc|]); (split; [exact Hw|]); (split; [exact Hf|]); (split; [exact Hle|]).
  - exact Hl.
  - discriminate.
Qed.

(** The first definition of [execute_function_call], replaced on the
    class, differs from the one in force only on [args] that is [None]:
    it hands [None] to [execute_action] where the one in force hands
    [{}]. *)
Theorem execute_function_call_first_differs fc e w :
  (fc_args fc <> VNone ->
   execute_function_call_first Action engine self_entity_id fc e w
   = execute_function_call Action engine self_entity_id fc e w) /\
  (fc_args fc = VNone ->
   execute_function_call_first Action engine self_entity_id fc e w
   = match Action (fc_name fc) with
     | Ok act => (engine (w_calls w) act VNone (py_or e self_entity_id),
                  add_call (mk_invocation act VNone (py_or e self_entity_id)) w)
     | Raise err => (Raise err, w)
     end).
Proof.
  unfold execute_function_call_first, execute_function_call, execute_action, bind.
  rewrite lift_app. split.
  - intros H. destruct (fc_args fc); [exfalso; now apply H | ..]; reflexivity.
  - intros H. rewrite H. simpl. destruct (Action (fc_name fc)); reflexivity.
Qed.

End DispatchExtras.

Lemma handle_response_effects_witness :
  handle_response action_any echo_engine "default" three_calls_response None empty_world
  = (Ok [VDict [("repo", VStr "composio")]; VDict []; VList [VInt 1]],
     mk_world [mk_invocation "GITHUB_STAR_REPO" (VDict [("repo", VStr "composio")]) "default";
               mk_invocation "SLACK_SEND" (VDict []) "default";
               mk_invocation "GITHUB_LIST" (VList [VInt 1]) "default"] []) /\
  exists new,
    w_calls (mk_world [mk_invocation "GITHUB_STAR_REPO" (VDict [("repo", VStr "composio")]) "default";
                       mk_invocation "SLACK_SEND" (VDict []) "default";
                       mk_invocation "GITHUB_LIST" (VList [VInt 1]) "default"] [])
    = w_calls empty_world ++ new /\
    w_warnings (mk_world [mk_invocation "GITHUB_STAR_REPO" (VDict [("repo", VStr "composio")]) "default";
                          mk_invocation "SLACK_SEND" (VDict []) "default";
                          mk_invocation "GITHUB_LIST" (VList [VInt 1]) "default"] [])
    = w_warnings empty_world /\
    Forall (fun i => inv_entity i = py_or None "default") new /\
    List.length new <= List.length (function_calls three_calls_response) /\
    (forall outs, Ok [VDict [("repo", VStr "composio")]; VDict []; VList [VInt 1]] = Ok outs ->
       List.length outs = List.length (function_calls three_calls_response) /\
       List.length new = List.length (function_calls three_calls_response)).
Proof.
  split; [reflexivity|].
  apply (handle_response_effects action_any echo_engine "default" three_calls_response None
           empty_world).
  reflexivity.
Defined.

Lemma execute_function_call_first_differs_witness :
  fc_args (mk_FunctionCall "SLACK_SEND" VNone) = VNone /\
  execute_function_call_first action_any echo_engine "default"
    (mk_FunctionCall "SLACK_SEND" VNone) None empty_world
  = (Ok VNone, mk_world [mk_invocation "SLACK_SEND" VNone "default"] []).
Proof.
  split; [reflexivity|].
  rewrite (proj2 (execute_function_call_first_differs action_any echo_engine "default"
                    (mk_FunctionCall "SLACK_SEND" VNone) None empty_world) eq_refl).
  reflexivity.
Defined.
